(** * A shallow embedding of the CSV record store of actix-web-rsvp

    Sources: [src/model.rs] (records and the merge step [RsvpModel::update])
    and [src/csvdb.rs] (the store [CsvDb] over one CSV file), with the
    lookup handler [handle_fetch] of [src/main.rs].

    Modelling choices:
    - Text is ASCII: [to_lowercase] lowers A..Z, [trim] strips the ASCII
      characters of Rust's [char::is_whitespace].
    - A [DateTime<Utc>] is an instant, kept as a [Z].
    - The file is the list of its CSV rows.  A row is the header line or the
      serialisation of one [RsvpModel]; the csv crate round-trips every field
      (quoting commas and newlines), so a data row is kept as the record.
    - Reading uses [has_headers(true)]: the first row is consumed as the
      header.  When it is the real header, data rows decode to their records
      and a header line in data position fails (["attending"] is no bool).
      When the first row is itself a data row, the following rows are keyed
      by its values; those never name all fourteen fields (four of them are
      ["true"]/["false"] and two are timestamps), so each such row fails to
      decode with a missing field.
    - Writing with [has_headers(true)] emits the header lazily, together with
      the first serialised record: a writer that serialises nothing writes
      nothing.
    - Every append in the code runs after [seek(End)] or right after the
      rewrite of the whole file, so a write is an append at the end.
    - I/O calls succeed; the [Io] error is kept in the error type only.
    - The [u32] counters of [Attendance] wrap around modulo 2^32 (release
      build arithmetic). *)

From Stdlib Require Import String Ascii List Bool ZArith Lia.
Import ListNotations.
Local Open Scope Z_scope.

(* ------------------------------------------------------------------ *)
(** ** Text *)

Module Text.

(** [char::is_whitespace] restricted to ASCII: '\t' '\n' '\x0B' '\x0C' '\r' ' '. *)
Definition is_whitespace (c : ascii) : bool :=
  let n := nat_of_ascii c in
  (Nat.eqb n 32 || (Nat.leb 9 n && Nat.leb n 13))%bool.

Definition to_lower_char (c : ascii) : ascii :=
  let n := nat_of_ascii c in
  if (Nat.leb 65 n && Nat.leb n 90)%bool then ascii_of_nat (n + 32) else c.

(** [str::to_lowercase] *)
Fixpoint to_lowercase (s : string) : string :=
  match s with
  | EmptyString => EmptyString
  | String c s' => String (to_lower_char c) (to_lowercase s')
  end.

Fixpoint trim_start (s : string) : string :=
  match s with
  | EmptyString => EmptyString
  | String c s' => if is_whitespace c then trim_start s' else s
  end.

Fixpoint trim_end (s : string) : string :=
  match s with
  | EmptyString => EmptyString
  | String c s' =>
      match trim_end s' with
      | EmptyString => if is_whitespace c then EmptyString else String c EmptyString
      | t => String c t
      end
  end.

(** [str::trim] *)
Definition trim (s : string) : string := trim_end (trim_start s).

(** [str::split(d)]: every piece, empty ones included; [""] gives [[""]]. *)
Fixpoint split (d : ascii) (s : string) : list string :=
  match s with
  | EmptyString => [EmptyString]
  | String c s' =>
      let parts := split d s' in
      if Ascii.eqb c d then EmptyString :: parts
      else match parts with
           | [] => [String c EmptyString]
           | p :: ps => String c p :: ps
           end
  end.

(** [str::is_empty] *)
Definition is_empty (s : string) : bool :=
  match s with EmptyString => true | _ => false end.

Fixpoint has_char (d : ascii) (s : string) : bool :=
  match s with
  | EmptyString => false
  | String c s' => Ascii.eqb c d || has_char d s'
  end.

End Text.

Import Text.

(* ------------------------------------------------------------------ *)
(** ** Data model ([src/model.rs]) *)

Definition DateTime := Z.

Module AddParams.
Record t := mk {
  name : string;
  email : string;
  plus_one_name : string;
}.
End AddParams.

Module RsvpParams.
Record t := mk {
  name : string;
  email : string;
  attending : bool;
  attending_secondary : bool;
  attending_tertiary : bool;
  meal_choice : string;
  dietary_restrictions : string;
  plus_one_attending : bool;
  plus_one_name : string;
  plus_one_meal_choice : string;
  plus_one_dietary_restrictions : string;
  comments : string;
}.
End RsvpParams.

Record Attendance := mkAttendance {
  attending : Z;
  attending_secondary : Z;
  attending_tertiary : Z;
}.

(** [Attendance::default()] *)
Definition Attendance_default : Attendance := mkAttendance 0 0 0.

(** [error::Error], the variants the store produces. *)
Inductive Error :=
| Csv
| Io
| Add (params : AddParams.t)
| Update (params : RsvpParams.t).

Inductive result (A : Type) :=
| Ok (a : A)
| Err (e : Error).
Arguments Ok {A} a.
Arguments Err {A} e.

Module RsvpModel.
Record t := mk {
  name : string;
  email : string;
  attending : bool;
  attending_secondary : bool;
  attending_tertiary : bool;
  meal_choice : string;
  dietary_restrictions : string;
  plus_one_attending : bool;
  plus_one_name : string;
  plus_one_meal_choice : string;
  plus_one_dietary_restrictions : string;
  comments : string;
  created_at : DateTime;
  updated_at : DateTime;
}.

(** [RsvpModel::new_with_rsvp] *)
Definition new_with_rsvp (params : RsvpParams.t) (datetime : DateTime) : t :=
  {| name := RsvpParams.name params;
     email := RsvpParams.email params;
     attending := RsvpParams.attending params;
     attending_secondary := RsvpParams.attending_secondary params;
     attending_tertiary := RsvpParams.attending_tertiary params;
     meal_choice := RsvpParams.meal_choice params;
     dietary_restrictions := RsvpParams.dietary_restrictions params;
     plus_one_attending := RsvpParams.plus_one_attending params;
     plus_one_name := RsvpParams.plus_one_name params;
     plus_one_meal_choice := RsvpParams.plus_one_meal_choice params;
     plus_one_dietary_restrictions := RsvpParams.plus_one_dietary_restrictions params;
     comments := RsvpParams.comments params;
     created_at := datetime;
     updated_at := datetime |}.

(** [RsvpModel::update]: the in-place update of [&mut self] returns the
    updated record, or the error with [self] left alone. *)
Definition update (self : t) (params : RsvpParams.t) (datetime : DateTime) : result t :=
  if negb (String.eqb (name self) (RsvpParams.name params)) then Err (Update params)
  else Ok
    {| name := name self;
       email := RsvpParams.email params;
       attending := RsvpParams.attending params;
       attending_secondary := RsvpParams.attending_secondary params;
       attending_tertiary := RsvpParams.attending_tertiary params;
       meal_choice :=
         if negb (is_empty (RsvpParams.meal_choice params))
         then RsvpParams.meal_choice params else meal_choice self;
       dietary_restrictions := RsvpParams.dietary_restrictions params;
       plus_one_attending := RsvpParams.plus_one_attending params;
       plus_one_name := RsvpParams.plus_one_name params;
       plus_one_meal_choice :=
         if negb (is_empty (RsvpParams.plus_one_meal_choice params))
         then RsvpParams.plus_one_meal_choice params else plus_one_meal_choice self;
       plus_one_dietary_restrictions := RsvpParams.plus_one_dietary_restrictions params;
       comments := RsvpParams.comments params;
       created_at := created_at self;
       updated_at := datetime |}.

(** [RsvpModel::new_with_add] *)
Definition new_with_add (params : AddParams.t) (datetime : DateTime) : t :=
  {| name := AddParams.name params;
     email := AddParams.email params;
     attending := false;
     attending_secondary := false;
     attending_tertiary := false;
     meal_choice := EmptyString;
     dietary_restrictions := EmptyString;
     plus_one_attending := false;
     plus_one_name := AddParams.plus_one_name params;
     plus_one_meal_choice := EmptyString;
     plus_one_dietary_restrictions := EmptyString;
     comments := EmptyString;
     created_at := datetime;
     updated_at := datetime |}.

End RsvpModel.

(* ------------------------------------------------------------------ *)
(** ** The store ([src/csvdb.rs]) *)

(** A row of the CSV file: the [HEADER_LINE] or one serialised record. *)
Inductive Row :=
| HeaderRow
| RecordRow (r : RsvpModel.t).

(** [struct CsvDb { file, datetime }] *)
Record CsvDb := mkCsvDb {
  file : list Row;
  datetime : DateTime;
}.

(** A store operation: the state is threaded through, also on the error
    path, so that writes done before an error stay in the file. *)
Definition St (A : Type) := CsvDb -> result A * CsvDb.

Definition ret {A} (a : A) : St A := fun db => (Ok a, db).
Definition fail {A} (e : Error) : St A := fun db => (Err e, db).
Definition bind {A B} (m : St A) (k : A -> St B) : St B :=
  fun db => match m db with
            | (Ok a, db') => k a db'
            | (Err e, db') => (Err e, db')
            end.
Definition lift {A} (r : result A) : St A := fun db => (r, db).

Notation "x <- m ;; k" := (bind m (fun x => k))
  (at level 61, m at next level, right associativity).
Notation "m ;;; k" := (bind m (fun _ => k))
  (at level 61, right associativity).

Definition now : St DateTime := fun db => (Ok (datetime db), db).
Definition set_file (f : list Row) : St unit :=
  fun db => (Ok tt, {| file := f; datetime := datetime db |}).
Definition append_row (r : RsvpModel.t) : St unit :=
  fun db => (Ok tt, {| file := file db ++ [RecordRow r]; datetime := datetime db |}).

(** [CsvDb::update_time] *)
Definition update_time (new_datetime : DateTime) (db : CsvDb) : CsvDb :=
  {| file := file db; datetime := new_datetime |}.

(** [CsvDb::default()]: a fresh file and [add_header]. *)
Definition default_db (datetime : DateTime) : CsvDb :=
  {| file := [HeaderRow]; datetime := datetime |}.

(** Decoding of one row read after the row [header] taken as header. *)
Definition decode_row (header row : Row) : result RsvpModel.t :=
  match header, row with
  | HeaderRow, RecordRow r => Ok r
  | _, _ => Err Csv
  end.

(** [ReaderBuilder::new().has_headers(true).from_reader(..).deserialize()]
    from the start of the file. *)
Definition deserialize (f : list Row) : list (result RsvpModel.t) :=
  match f with
  | [] => []
  | header :: rows => map (decode_row header) rows
  end.

(** [WriterBuilder::new().has_headers(true)] serialising [records]. *)
Definition serialize_with_headers (records : list RsvpModel.t) : list Row :=
  match records with
  | [] => []
  | _ => HeaderRow :: map RecordRow records
  end.

Fixpoint collect (rows : list (result RsvpModel.t)) : result (list RsvpModel.t) :=
  match rows with
  | [] => Ok []
  | Err e :: _ => Err e
  | Ok r :: rest =>
      match collect rest with
      | Ok rs => Ok (r :: rs)
      | Err e => Err e
      end
  end.

(** [CsvDb::get_all] *)
Definition get_all : St (list RsvpModel.t) :=
  fun db => (collect (deserialize (file db)), db).

(** The query parts of [CsvDb::get]: [name.split('&')], each
    [name.trim().to_lowercase()]. *)
Definition query_parts (name : string) : list string :=
  map (fun n => to_lowercase (trim n)) (split "&"%char name).

Definition matches_part (rsvp : RsvpModel.t) (name : string) : bool :=
  String.eqb (to_lowercase (RsvpModel.name rsvp)) name
  || String.eqb (to_lowercase (RsvpModel.plus_one_name rsvp)) name.

Definition matches_query (parts : list string) (rsvp : RsvpModel.t) : bool :=
  existsb (matches_part rsvp) parts.

Fixpoint get_scan (parts : list string) (rows : list (result RsvpModel.t))
  : result (option RsvpModel.t) :=
  match rows with
  | [] => Ok None
  | Err e :: _ => Err e
  | Ok rsvp :: rest =>
      if matches_query parts rsvp then Ok (Some rsvp) else get_scan parts rest
  end.

(** [CsvDb::get] *)
Definition get (name : string) : St (option RsvpModel.t) :=
  fun db => (get_scan (query_parts name) (deserialize (file db)), db).

(** [CsvDb::insert] *)
Definition insert (params : AddParams.t) : St RsvpModel.t :=
  m <- get (AddParams.name params) ;;
  match m with
  | Some _ => fail (Add params)
  | None =>
      dt <- now ;;
      let record_to_insert := RsvpModel.new_with_add params dt in
      append_row record_to_insert ;;;
      ret record_to_insert
  end.

Definition same_name (name : string) (r : RsvpModel.t) : bool :=
  String.eqb (to_lowercase (RsvpModel.name r)) name.

(** [CsvDb::remove] *)
Definition remove (name : string) : St (option RsvpModel.t) :=
  records <- get_all ;;
  let name := to_lowercase (trim name) in
  match find (same_name name) records with
  | Some record =>
      set_file (serialize_with_headers
                  (filter (fun r => negb (same_name name r)) records)) ;;;
      ret (Some record)
  | None => ret None
  end.

(** [CsvDb::upsert] *)
Definition upsert (params : RsvpParams.t) : St RsvpModel.t :=
  maybe_record <- remove (RsvpParams.name params) ;;
  dt <- now ;;
  record_to_insert <-
    match maybe_record with
    | Some record => lift (RsvpModel.update record params dt)
    | None => ret (RsvpModel.new_with_rsvp params dt)
    end ;;
  append_row record_to_insert ;;;
  ret record_to_insert.

(** [u32] addition. *)
Definition add_u32 (a b : Z) : Z := (a + b) mod 2 ^ 32.

Definition count_rsvp (attendance : Attendance) (rsvp : RsvpModel.t) : Attendance :=
  let number_attending := if RsvpModel.plus_one_attending rsvp then 2 else 1 in
  {| attending :=
       if RsvpModel.attending rsvp
       then add_u32 (attending attendance) number_attending else attending attendance;
     attending_secondary :=
       if RsvpModel.attending_secondary rsvp
       then add_u32 (attending_secondary attendance) number_attending
       else attending_secondary attendance;
     attending_tertiary :=
       if RsvpModel.attending_tertiary rsvp
       then add_u32 (attending_tertiary attendance) number_attending
       else attending_tertiary attendance |}.

Fixpoint attendance_scan (acc : Attendance) (rows : list (result RsvpModel.t))
  : result Attendance :=
  match rows with
  | [] => Ok acc
  | Err e :: _ => Err e
  | Ok rsvp :: rest => attendance_scan (count_rsvp acc rsvp) rest
  end.

(** [CsvDb::attendance] *)
Definition attendance_op : St Attendance :=
  fun db => (attendance_scan Attendance_default (deserialize (file db)), db).

(** Running a sequence of operations. *)
Definition run {A} (m : St A) (db : CsvDb) : result A := fst (m db).
Definition exec {A} (m : St A) (db : CsvDb) : CsvDb := snd (m db).

(** The pages [handle_fetch] ([src/main.rs]) answers with: [rsvp.html]
    filled with the record, or [fetch.html] with [NOT_FOUND_MESSAGE]
    ([name_not_found]).  Rendering and [serde_json] are taken to succeed. *)
Inductive FetchResponse :=
| RsvpPage (record : RsvpModel.t)
| NameNotFound.

(** [handle_fetch], under the store's lock. *)
Definition handle_fetch (name : string) : St FetchResponse :=
  if is_empty name then ret NameNotFound
  else
    record <- get name ;;
    match record with
    | Some record => ret (RsvpPage record)
    | None => ret NameNotFound
    end.

(** The parameters of the crate's [test_rsvp()]. *)
Definition test_rsvp : RsvpParams.t :=
  {| RsvpParams.name := "John";
     RsvpParams.email := "john@john.john";
     RsvpParams.attending := true;
     RsvpParams.attending_secondary := true;
     RsvpParams.attending_tertiary := false;
     RsvpParams.meal_choice := "Fish";
     RsvpParams.dietary_restrictions := "Yes";
     RsvpParams.plus_one_attending := true;
     RsvpParams.plus_one_name := "Johnson";
     RsvpParams.plus_one_meal_choice := "Veggies";
     RsvpParams.plus_one_dietary_restrictions := "No";
     RsvpParams.comments := "Can't wait!" |}.


Example query_parts_blank : query_parts " & Bob" = [""; "bob"]%string.
Proof. reflexivity. Qed.

(** A record built by [insert] from a name alone. *)
Definition add_named (n : string) : AddParams.t :=
  {| AddParams.name := n; AddParams.email := EmptyString;
     AddParams.plus_one_name := EmptyString |}.

(** An RSVP of [test_rsvp]'s fields under another name. *)
Definition rsvp_named (n : string) : RsvpParams.t :=
  {| RsvpParams.name := n;
     RsvpParams.email := RsvpParams.email test_rsvp;
     RsvpParams.attending := RsvpParams.attending test_rsvp;
     RsvpParams.attending_secondary := RsvpParams.attending_secondary test_rsvp;
     RsvpParams.attending_tertiary := RsvpParams.attending_tertiary test_rsvp;
     RsvpParams.meal_choice := RsvpParams.meal_choice test_rsvp;
     RsvpParams.dietary_restrictions := RsvpParams.dietary_restrictions test_rsvp;
     RsvpParams.plus_one_attending := RsvpParams.plus_one_attending test_rsvp;
     RsvpParams.plus_one_name := RsvpParams.plus_one_name test_rsvp;
     RsvpParams.plus_one_meal_choice := RsvpParams.plus_one_meal_choice test_rsvp;
     RsvpParams.plus_one_dietary_restrictions :=
       RsvpParams.plus_one_dietary_restrictions test_rsvp;
     RsvpParams.comments := RsvpParams.comments test_rsvp |}.

(** A record with the given name and plus-one name, created at time 0. *)
Definition model_named (n plus_one : string) : RsvpModel.t :=
  RsvpModel.new_with_add
    {| AddParams.name := n; AddParams.email := EmptyString;
       AddParams.plus_one_name := plus_one |} 0.

(** [upsert test_rsvp] on a fresh store at time 1, then again at time 2. *)
Definition after_first_upsert : CsvDb := exec (upsert test_rsvp) (default_db 1).
Definition after_second_upsert : CsvDb :=
  exec (upsert test_rsvp) (update_time 2 after_first_upsert).

(** A store of records behind the header line, at time [t]. *)
Definition store_of (records : list RsvpModel.t) (t : DateTime) : CsvDb :=
  {| file := HeaderRow :: map RecordRow records; datetime := t |}.

(** [test_rsvp] with an empty plus-one meal choice. *)
Definition rsvp_no_plus_one_meal : RsvpParams.t :=
  {| RsvpParams.name := "John";
     RsvpParams.email := "john@john.john";
     RsvpParams.attending := true;
     RsvpParams.attending_secondary := true;
     RsvpParams.attending_tertiary := false;
     RsvpParams.meal_choice := "Fish";
     RsvpParams.dietary_restrictions := "Yes";
     RsvpParams.plus_one_attending := true;
     RsvpParams.plus_one_name := "Johnson";
     RsvpParams.plus_one_meal_choice := "";
     RsvpParams.plus_one_dietary_restrictions := "No";
     RsvpParams.comments := "Can't wait!" |}%string.

(* ------------------------------------------------------------------ *)
(** ** Concrete runs *)

(** C1: upserting the only record of the store a second time empties the
    listing: the rewrite after the removal serialises no record, so no
    header is written, and the merged row appended next is read back as the
    header.  One upsert listed one record; the re-upsert lists none. *)
Theorem C1_reupsert_only_record_empties_listing :
  run get_all after_first_upsert = Ok [RsvpModel.new_with_rsvp test_rsvp 1]
  /\ match run (upsert test_rsvp) (update_time 2 after_first_upsert) with
     | Ok r2 => file after_second_upsert = [RecordRow r2]
     | Err _ => False
     end
  /\ run get_all after_second_upsert = Ok [].
Proof. vm_compute. repeat split; reflexivity. Qed.

(** C2: inserting [" Ann"] twice into a fresh store succeeds both times:
    [get] trims the query to ["ann"] but compares it with the untrimmed
    stored name [" ann"], so the duplicate goes undetected and the store
    ends with two records named [" Ann"]. *)
Theorem C2_insert_twice_spaced_name_duplicates :
  let db1 := exec (insert (add_named " Ann")) (default_db 0) in
  run (insert (add_named " Ann")) (default_db 0)
    = Ok (RsvpModel.new_with_add (add_named " Ann") 0)
  /\ run (insert (add_named " Ann")) db1
    = Ok (RsvpModel.new_with_add (add_named " Ann") 0)
  /\ run get_all (exec (insert (add_named " Ann")) db1)
    = Ok [RsvpModel.new_with_add (add_named " Ann") 0;
          RsvpModel.new_with_add (add_named " Ann") 0].
Proof. vm_compute. repeat split; reflexivity. Qed.


(** C4: with a second record ["john"] ahead of [R = "John"], [upsert] on
    ["john"] (which differs from ["John"] only in case) merges into the
    first match and succeeds, instead of failing with [Update]. *)
Lemma C4_case_twin_upsert_succeeds :
  let db := store_of [model_named "john" ""; model_named "John" ""] 3 in
  RsvpModel.name (model_named "John" "") <> RsvpParams.name (rsvp_named "john")
  /\ to_lowercase (trim (RsvpParams.name (rsvp_named "john")))
     = to_lowercase (RsvpModel.name (model_named "John" ""))
  /\ match run (upsert (rsvp_named "john")) db with
     | Ok r => RsvpModel.name r = "john"%string
     | Err _ => False
     end.
Proof. vm_compute. split; [discriminate | split; reflexivity]. Qed.

(** C5: an empty incoming plus-one meal choice also leaves the previous
    one in place: [meal_choice] is not the only protected field. *)
Lemma C5_plus_one_meal_choice_kept :
  match RsvpModel.update (RsvpModel.new_with_rsvp test_rsvp 1) rsvp_no_plus_one_meal 2 with
  | Ok r => RsvpModel.plus_one_meal_choice r = "Veggies"%string
  | Err _ => False
  end
  /\ RsvpParams.plus_one_meal_choice rsvp_no_plus_one_meal = EmptyString.
Proof. vm_compute. split; reflexivity. Qed.

(** C6: [upsert test_rsvp] twice on a fresh store leaves no readable
    record: [get_all] lists nothing and [get "John"] finds nothing; the
    file holds the merged row alone, without its header. *)
Theorem C6_upsert_twice_loses_record :
  run get_all after_second_upsert = Ok []
  /\ run (get "John") after_second_upsert = Ok None
  /\ match file after_second_upsert with
     | [RecordRow r] =>
         RsvpModel.name r = "John"%string
         /\ RsvpModel.created_at r = 1 /\ RsvpModel.updated_at r = 2
     | _ => False
     end.
Proof. vm_compute. repeat split; reflexivity. Qed.



(** C10: with ["Bob"] (plus-one ["Zed"]) stored before ["Amy"] (empty
    plus-one), [get " & Bob"] returns ["Bob"], not the first record with an
    empty plus-one name. *)
Lemma C10_earlier_match_wins :
  let db := store_of [model_named "Bob" "Zed"; model_named "Amy" ""] 0 in
  run (get " & Bob") db = Ok (Some (model_named "Bob" "Zed"))
  /\ RsvpModel.plus_one_name (model_named "Bob" "Zed") <> EmptyString.
Proof. vm_compute. split; [reflexivity | discriminate]. Qed.

(* ------------------------------------------------------------------ *)
(** ** Reading a readable file *)

Lemma collect_map_ok (rs : list RsvpModel.t) : collect (map Ok rs) = Ok rs.
Proof. induction rs as [|r rs IH]; simpl; [reflexivity | now rewrite IH]. Qed.

Lemma collect_ok (rows : list (result RsvpModel.t)) (rs : list RsvpModel.t) :
  collect rows = Ok rs -> rows = map Ok rs.
Proof.
  revert rs; induction rows as [|[r|e] rows IH]; intros rs H; simpl in H.
  - now inversion H.
  - destruct (collect rows) as [rs'|e] eqn:E; inversion H; subst.
    simpl; f_equal; now apply IH.
  - discriminate.
Qed.

Lemma get_all_ok (db : CsvDb) (rs : list RsvpModel.t) :
  run get_all db = Ok rs -> deserialize (file db) = map Ok rs.
Proof. apply collect_ok. Qed.

Lemma get_scan_map_ok (parts : list string) (rs : list RsvpModel.t) :
  get_scan parts (map Ok rs) = Ok (find (matches_query parts) rs).
Proof.
  induction rs as [|r rs IH]; simpl; [reflexivity|].
  destruct (matches_query parts r); [reflexivity | exact IH].
Qed.


Lemma deserialize_serialize_with_headers (rs : list RsvpModel.t) :
  deserialize (serialize_with_headers rs) = map Ok rs.
Proof.
  destruct rs as [|r rs]; [reflexivity|].
  simpl; f_equal. induction rs as [|r' rs IH]; simpl; [reflexivity | now rewrite IH].
Qed.

Lemma in_serialize_with_headers (r : RsvpModel.t) (rs : list RsvpModel.t) :
  In (RecordRow r) (serialize_with_headers rs) -> In r rs.
Proof.
  destruct rs as [|r0 rs]; simpl; [tauto|].
  intros [H|H]; [discriminate|].
  change (In (RecordRow r) (map RecordRow (r0 :: rs))) in H.
  apply in_map_iff in H as (x & Hx & Hin); inversion Hx; now subst.
Qed.

(** [remove] on a readable file, by the outcome of its search. *)
Lemma remove_absent (name : string) (db : CsvDb) (rs : list RsvpModel.t) :
  run get_all db = Ok rs ->
  find (same_name (to_lowercase (trim name))) rs = None ->
  remove name db = (Ok None, db).
Proof.
  intros H Hf. unfold remove, bind, ret. unfold run, get_all in H; simpl in H.
  unfold get_all; rewrite H, Hf. reflexivity.
Qed.

Lemma remove_found (name : string) (db : CsvDb) (rs : list RsvpModel.t) (r : RsvpModel.t) :
  run get_all db = Ok rs ->
  find (same_name (to_lowercase (trim name))) rs = Some r ->
  remove name db =
    (Ok (Some r),
     {| file := serialize_with_headers
                  (filter (fun x => negb (same_name (to_lowercase (trim name)) x)) rs);
        datetime := datetime db |}).
Proof.
  intros H Hf. unfold remove, bind, ret, set_file. unfold run, get_all in H; simpl in H.
  unfold get_all; rewrite H, Hf. reflexivity.
Qed.


(* ------------------------------------------------------------------ *)
(** ** Text lemmas *)

Lemma split_no_char (d : ascii) (s : string) :
  has_char d s = false -> split d s = [s].
Proof.
  induction s as [|c s IH]; simpl; [reflexivity|].
  intros H; apply orb_false_iff in H as [Hc Hs].
  rewrite Hc, (IH Hs). reflexivity.
Qed.

Lemma has_char_trim_start (d : ascii) (s : string) :
  is_whitespace d = false -> has_char d s = true -> has_char d (trim_start s) = true.
Proof.
  intros Hd; induction s as [|c s IH]; simpl; [discriminate|].
  intros H. destruct (is_whitespace c) eqn:Hc; [|exact H].
  apply orb_true_iff in H as [H|H]; [|now apply IH].
  apply Ascii.eqb_eq in H; subst; congruence.
Qed.

Lemma has_char_trim_end (d : ascii) (s : string) :
  is_whitespace d = false -> has_char d s = true -> has_char d (trim_end s) = true.
Proof.
  intros Hd; induction s as [|c s IH]; simpl; [discriminate|].
  intros H. apply orb_true_iff in H as [H|H].
  - apply Ascii.eqb_eq in H; subst.
    destruct (trim_end s); [rewrite Hd|]; simpl; now rewrite Ascii.eqb_refl.
  - specialize (IH H). destruct (trim_end s) as [|c' t]; [discriminate|].
    change (has_char d (String c (String c' t)) = true).
    simpl; simpl in IH; rewrite IH, orb_true_r. reflexivity.
Qed.

Lemma has_char_trim (d : ascii) (s : string) :
  is_whitespace d = false -> has_char d s = true -> has_char d (trim s) = true.
Proof. intros Hd H. apply has_char_trim_end, has_char_trim_start; assumption. Qed.



Lemma query_parts_no_amp (s : string) :
  has_char "&" s = false -> query_parts s = [to_lowercase (trim s)].
Proof. intros H. unfold query_parts. now rewrite split_no_char. Qed.


(* ------------------------------------------------------------------ *)
(** ** Theorems *)


(** C4 (amended): in a readable store where no other record's name equals
    [R]'s name up to letter case, an [upsert] whose name differs from
    [R]'s exactly but matches it once trimmed and lowercased fails with
    [Update], and [R] is gone from the file: the removal already rewrote
    it. *)
Theorem C4_upsert_case_mismatch_loses_record (db : CsvDb) (rs : list RsvpModel.t)
    (R : RsvpModel.t) (p : RsvpParams.t) :
  run get_all db = Ok rs ->
  In R rs ->
  (forall r, In r rs ->
     to_lowercase (RsvpModel.name r) = to_lowercase (RsvpModel.name R) ->
     RsvpModel.name r = RsvpModel.name R) ->
  RsvpModel.name R <> RsvpParams.name p ->
  to_lowercase (trim (RsvpParams.name p)) = to_lowercase (RsvpModel.name R) ->
  run (upsert p) db = Err (Update p)
  /\ ~ In (RecordRow R) (file (exec (upsert p) db)).
Proof.
  intros Hall HR Huniq Hne Hlow.
  set (n := to_lowercase (trim (RsvpParams.name p))).
  assert (HRn : same_name n R = true).
  { unfold same_name, n; rewrite Hlow; apply String.eqb_refl. }
  destruct (find (same_name n) rs) as [r0|] eqn:Hfind.
  2:{ apply find_none with (x := R) in Hfind; congruence. }
  apply find_some in Hfind as Hr0; destruct Hr0 as [Hin0 Hr0].
  assert (Hname0 : RsvpModel.name r0 = RsvpModel.name R).
  { apply Huniq; [exact Hin0|].
    unfold same_name, n in Hr0; apply String.eqb_eq in Hr0; congruence. }
  unfold run, exec, upsert, bind.
  rewrite (remove_found _ _ _ _ Hall Hfind). simpl.
  unfold RsvpModel.update. rewrite Hname0.
  destruct (String.eqb_spec (RsvpModel.name R) (RsvpParams.name p)) as [E|_];
    [contradiction|].
  simpl; split; [reflexivity|].
  intros Hin; apply in_serialize_with_headers, filter_In in Hin as [_ Hin].
  fold n in Hin; rewrite HRn in Hin; discriminate.
Qed.

(** C5 (amended): merging parameters of the same name overwrites every
    field except [name] and [created_at] with the incoming one, empty
    strings included, except that an empty incoming [meal_choice] or an
    empty incoming [plus_one_meal_choice] keeps the previous value;
    [updated_at] becomes the operation's time. *)
Theorem C5_update_fields (R : RsvpModel.t) (p : RsvpParams.t) (dt : DateTime) :
  RsvpModel.name R = RsvpParams.name p ->
  exists r, RsvpModel.update R p dt = Ok r
  /\ RsvpModel.name r = RsvpModel.name R
  /\ RsvpModel.created_at r = RsvpModel.created_at R
  /\ RsvpModel.updated_at r = dt
  /\ RsvpModel.email r = RsvpParams.email p
  /\ RsvpModel.attending r = RsvpParams.attending p
  /\ RsvpModel.attending_secondary r = RsvpParams.attending_secondary p
  /\ RsvpModel.attending_tertiary r = RsvpParams.attending_tertiary p
  /\ RsvpModel.meal_choice r =
       (if is_empty (RsvpParams.meal_choice p) then RsvpModel.meal_choice R
        else RsvpParams.meal_choice p)
  /\ RsvpModel.dietary_restrictions r = RsvpParams.dietary_restrictions p
  /\ RsvpModel.plus_one_attending r = RsvpParams.plus_one_attending p
  /\ RsvpModel.plus_one_name r = RsvpParams.plus_one_name p
  /\ RsvpModel.plus_one_meal_choice r =
       (if is_empty (RsvpParams.plus_one_meal_choice p) then RsvpModel.plus_one_meal_choice R
        else RsvpParams.plus_one_meal_choice p)
  /\ RsvpModel.plus_one_dietary_restrictions r = RsvpParams.plus_one_dietary_restrictions p
  /\ RsvpModel.comments r = RsvpParams.comments p.
Proof.
  intros H. unfold RsvpModel.update. rewrite H, String.eqb_refl. simpl.
  eexists; split; [reflexivity|].
  simpl.
  destruct (is_empty (RsvpParams.meal_choice p)), (is_empty (RsvpParams.plus_one_meal_choice p));
    simpl; repeat split; reflexivity.
Qed.



(** C10 (amended): on a readable store holding a record with an empty
    plus-one name, a query with a part that is empty once trimmed (an empty
    or all-whitespace query, or an empty piece between ['&'] delimiters)
    returns [Some] record, never [None]: the first record in file order
    that matches one of the query's parts, the empty part matching every
    record with an empty name or an empty plus-one name. *)
Theorem C10_blank_part_matches (db : CsvDb) (rs : list RsvpModel.t)
    (r0 : RsvpModel.t) (q : string) :
  run get_all db = Ok rs ->
  In r0 rs ->
  RsvpModel.plus_one_name r0 = EmptyString ->
  In EmptyString (map trim (split "&"%char q)) ->
  exists r, run (get q) db = Ok (Some r)
  /\ find (matches_query (query_parts q)) rs = Some r
  /\ In EmptyString (query_parts q).
Proof.
  intros Hall Hin0 Hp0 Hq.
  assert (Hpart : In EmptyString (query_parts q)).
  { unfold query_parts. rewrite <- map_map. change EmptyString with (to_lowercase EmptyString).
    now apply in_map. }
  assert (Hm0 : matches_query (query_parts q) r0 = true).
  { unfold matches_query; apply existsb_exists; exists EmptyString; split; [exact Hpart|].
    unfold matches_part; rewrite Hp0; simpl; apply orb_true_r. }
  apply get_all_ok in Hall.
  destruct (find (matches_query (query_parts q)) rs) as [r|] eqn:Hf.
  - exists r; unfold run, get; rewrite Hall, get_scan_map_ok, Hf; auto.
  - apply find_none with (x := r0) in Hf; congruence.
Qed.

(** The weight of one record in one tier, in the words of the spec: 2 when
    the tier flag and [plus_one_attending] hold, 1 when only the tier flag
    holds, 0 otherwise. *)
Definition spec_weight (flag : RsvpModel.t -> bool) (r : RsvpModel.t) : Z :=
  if (flag r && RsvpModel.plus_one_attending r)%bool then 2
  else if flag r then 1 else 0.

(** The exact (unbounded) sum of one tier's weights over the records. *)
Definition tier_sum (flag : RsvpModel.t -> bool) (rs : list RsvpModel.t) : Z :=
  fold_right (fun r s => spec_weight flag r + s) 0 rs.

Lemma spec_weight_nonneg (flag : RsvpModel.t -> bool) (r : RsvpModel.t) :
  0 <= spec_weight flag r.
Proof. unfold spec_weight; destruct (flag r), (RsvpModel.plus_one_attending r); simpl; lia. Qed.

Lemma tier_sum_nonneg (flag : RsvpModel.t -> bool) (rs : list RsvpModel.t) :
  0 <= tier_sum flag rs.
Proof.
  induction rs as [|r rs IH]; simpl; [lia|].
  pose proof (spec_weight_nonneg flag r); lia.
Qed.

Lemma count_component (flag : RsvpModel.t -> bool) (a : Z) (r : RsvpModel.t) :
  0 <= a < 2 ^ 32 ->
  (if flag r then add_u32 a (if RsvpModel.plus_one_attending r then 2 else 1) else a)
  = (a + spec_weight flag r) mod 2 ^ 32.
Proof.
  intros Ha. unfold add_u32, spec_weight.
  destruct (flag r), (RsvpModel.plus_one_attending r); simpl; try reflexivity;
    rewrite Z.add_0_r; symmetry; apply Z.mod_small; exact Ha.
Qed.

(** The [u32] counters hold the tier sums modulo 2^32. *)
Lemma attendance_scan_sum (rs : list RsvpModel.t) (acc : Attendance) :
  0 <= attending acc < 2 ^ 32 ->
  0 <= attending_secondary acc < 2 ^ 32 ->
  0 <= attending_tertiary acc < 2 ^ 32 ->
  attendance_scan acc (map Ok rs) =
    Ok {| attending :=
            (attending acc + tier_sum RsvpModel.attending rs) mod 2 ^ 32;
          attending_secondary :=
            (attending_secondary acc + tier_sum RsvpModel.attending_secondary rs) mod 2 ^ 32;
          attending_tertiary :=
            (attending_tertiary acc + tier_sum RsvpModel.attending_tertiary rs) mod 2 ^ 32 |}.
Proof.
  revert acc; induction rs as [|r rs IH]; intros [a b c] Ha Hb Hc; simpl in *.
  - rewrite !Z.add_0_r, !Z.mod_small by assumption. reflexivity.
  - change (attendance_scan (count_rsvp (mkAttendance a b c) r) (map Ok rs) = 
      Ok {| attending := (a + tier_sum RsvpModel.attending (r :: rs)) mod 2 ^ 32;
            attending_secondary :=
              (b + tier_sum RsvpModel.attending_secondary (r :: rs)) mod 2 ^ 32;
            attending_tertiary :=
              (c + tier_sum RsvpModel.attending_tertiary (r :: rs)) mod 2 ^ 32 |}).
    unfold count_rsvp; cbn [attending attending_secondary attending_tertiary].
    rewrite !count_component by assumption.
    rewrite IH by (cbn [attending attending_secondary attending_tertiary];
                   apply Z.mod_pos_bound; lia).
    cbn [attending attending_secondary attending_tertiary tier_sum fold_right].
    rewrite !Z.add_mod_idemp_l by lia.
    rewrite !Z.add_assoc. reflexivity.
Qed.

Lemma attendance_op_sum (db : CsvDb) (rs : list RsvpModel.t) :
  run get_all db = Ok rs ->
  run attendance_op db =
    Ok {| attending := tier_sum RsvpModel.attending rs mod 2 ^ 32;
          attending_secondary := tier_sum RsvpModel.attending_secondary rs mod 2 ^ 32;
          attending_tertiary := tier_sum RsvpModel.attending_tertiary rs mod 2 ^ 32 |}.
Proof.
  intros H. apply get_all_ok in H. unfold run, attendance_op; simpl.
  rewrite H, attendance_scan_sum by (simpl; lia). reflexivity.
Qed.

(** An RSVP for the first tier only, with or without a plus-one. *)
Definition rsvp_first_tier (n : string) (plus_one : bool) : RsvpParams.t :=
  {| RsvpParams.name := n;
     RsvpParams.email := "";
     RsvpParams.attending := true;
     RsvpParams.attending_secondary := false;
     RsvpParams.attending_tertiary := false;
     RsvpParams.meal_choice := "";
     RsvpParams.dietary_restrictions := "";
     RsvpParams.plus_one_attending := plus_one;
     RsvpParams.plus_one_name := "";
     RsvpParams.plus_one_meal_choice := "";
     RsvpParams.plus_one_dietary_restrictions := "";
     RsvpParams.comments := "" |}%string.

(** Two records attending the first tier, the first with a plus-one. *)
Definition two_attending : list RsvpModel.t :=
  [RsvpModel.new_with_rsvp (rsvp_first_tier "John" true) 0;
   RsvpModel.new_with_rsvp (rsvp_first_tier "Jane" false) 0].

(** Every tier attended, with a plus-one. *)
Definition all_tiers_rsvp : RsvpParams.t :=
  {| RsvpParams.name := "Ann";
     RsvpParams.email := "";
     RsvpParams.attending := true;
     RsvpParams.attending_secondary := true;
     RsvpParams.attending_tertiary := true;
     RsvpParams.meal_choice := "";
     RsvpParams.dietary_restrictions := "";
     RsvpParams.plus_one_attending := true;
     RsvpParams.plus_one_name := "";
     RsvpParams.plus_one_meal_choice := "";
     RsvpParams.plus_one_dietary_restrictions := "";
     RsvpParams.comments := "" |}%string.

Lemma tier_sum_repeat_all (flag : RsvpModel.t -> bool) (n : nat) :
  flag (RsvpModel.new_with_rsvp all_tiers_rsvp 0) = true ->
  tier_sum flag (repeat (RsvpModel.new_with_rsvp all_tiers_rsvp 0) n) = 2 * Z.of_nat n.
Proof.
  intros Hf; induction n as [|n IH]; [reflexivity|].
  cbn [repeat tier_sum fold_right]. fold (tier_sum flag (repeat (RsvpModel.new_with_rsvp all_tiers_rsvp 0) n)).
  rewrite IH, Nat2Z.inj_succ. unfold spec_weight; rewrite Hf.
  change (RsvpModel.plus_one_attending (RsvpModel.new_with_rsvp all_tiers_rsvp 0)) with true.
  cbn [andb]. lia.
Qed.

Lemma store_of_readable (records : list RsvpModel.t) (t : DateTime) :
  run get_all (store_of records t) = Ok records.
Proof.
  unfold run, get_all, store_of; simpl. rewrite map_map.
  change (collect (map Ok records) = Ok records). apply collect_map_ok.
Qed.

Lemma attendance_repeat_all (n : nat) :
  let all := RsvpModel.new_with_rsvp all_tiers_rsvp 0 in
  tier_sum RsvpModel.attending (repeat all n) = 2 * Z.of_nat n
  /\ run attendance_op (store_of (repeat all n) 0) =
       Ok {| attending := (2 * Z.of_nat n) mod 2 ^ 32;
             attending_secondary := (2 * Z.of_nat n) mod 2 ^ 32;
             attending_tertiary := (2 * Z.of_nat n) mod 2 ^ 32 |}.
Proof.
  intros all. rewrite (attendance_op_sum _ _ (store_of_readable _ _)).
  rewrite !tier_sum_repeat_all by reflexivity. split; reflexivity.
Qed.

(** C9 (amended): on a readable store, [attendance] adds, per tier and
    independently, a weight of 2 for each record with the tier flag and
    [plus_one_attending], 1 for each record with the tier flag alone, and
    0 otherwise.  The totals are [u32] counters: each is the weight sum
    modulo 2^32, which is exactly the sum while the sum stays below 2^32.
    For two records attending the first tier, the first with a plus-one and
    the second without, the first tier's total is 3. *)
Theorem C9_attendance_tier_sums (db : CsvDb) (rs : list RsvpModel.t) :
  run get_all db = Ok rs ->
  (exists a, run attendance_op db = Ok a
   /\ attending a = tier_sum RsvpModel.attending rs mod 2 ^ 32
   /\ attending_secondary a = tier_sum RsvpModel.attending_secondary rs mod 2 ^ 32
   /\ attending_tertiary a = tier_sum RsvpModel.attending_tertiary rs mod 2 ^ 32
   /\ (tier_sum RsvpModel.attending rs < 2 ^ 32 ->
         attending a = tier_sum RsvpModel.attending rs)
   /\ (tier_sum RsvpModel.attending_secondary rs < 2 ^ 32 ->
         attending_secondary a = tier_sum RsvpModel.attending_secondary rs)
   /\ (tier_sum RsvpModel.attending_tertiary rs < 2 ^ 32 ->
         attending_tertiary a = tier_sum RsvpModel.attending_tertiary rs))
  /\ map (fun r => (RsvpModel.attending r, RsvpModel.plus_one_attending r)) two_attending
       = [(true, true); (true, false)]
  /\ exists a, run attendance_op (store_of two_attending 0) = Ok a /\ attending a = 3.
Proof.
  intros H. split; [|split; [reflexivity|]].
  - rewrite (attendance_op_sum _ _ H). eexists; split; [reflexivity|]. simpl.
    pose proof (tier_sum_nonneg RsvpModel.attending rs).
    pose proof (tier_sum_nonneg RsvpModel.attending_secondary rs).
    pose proof (tier_sum_nonneg RsvpModel.attending_tertiary rs).
    repeat split; intros; apply Z.mod_small; lia.
  - eexists; split; [vm_compute; reflexivity | reflexivity].
Qed.

(** C9: with 2^31 records attending every tier with a plus-one, each tier's
    weight sum is 2^32, but the [u32] counters wrap around to 0. *)
Lemma C9_u32_counters_wrap :
  let all := RsvpModel.new_with_rsvp all_tiers_rsvp 0 in
  let records := repeat all (Z.to_nat (2 ^ 31)) in
  run get_all (store_of records 0) = Ok records
  /\ tier_sum RsvpModel.attending records = 2 ^ 32
  /\ run attendance_op (store_of records 0) =
       Ok {| attending := 0; attending_secondary := 0; attending_tertiary := 0 |}.
Proof.
  intros all records. split; [apply store_of_readable|].
  destruct (attendance_repeat_all (Z.to_nat (2 ^ 31))) as [H1 H2].
  fold all records in H1, H2.
  rewrite Z2Nat.id in H1, H2 by lia.
  split; [rewrite H1; reflexivity|].
  rewrite H2. reflexivity.
Qed.

(* ------------------------------------------------------------------ *)
(** ** Witnesses: the theorems at concrete stores *)


Lemma C4_upsert_case_mismatch_loses_record_witness :
  run (upsert (rsvp_named "JOHN")) (store_of [model_named "John" ""] 0)
    = Err (Update (rsvp_named "JOHN"))
  /\ ~ In (RecordRow (model_named "John" ""))
         (file (exec (upsert (rsvp_named "JOHN")) (store_of [model_named "John" ""] 0))).
Proof.
  apply (C4_upsert_case_mismatch_loses_record (store_of [model_named "John" ""] 0)
           [model_named "John" ""] (model_named "John" "") (rsvp_named "JOHN")).
  - vm_compute; reflexivity.
  - simpl; left; reflexivity.
  - intros r [Hr|[]] _; rewrite Hr; reflexivity.
  - vm_compute; discriminate.
  - vm_compute; reflexivity.
Defined.

Lemma C5_update_fields_witness :
  exists r, RsvpModel.update (RsvpModel.new_with_rsvp test_rsvp 1) rsvp_no_plus_one_meal 2 = Ok r
  /\ RsvpModel.plus_one_meal_choice r = "Veggies"%string
  /\ RsvpModel.created_at r = 1 /\ RsvpModel.updated_at r = 2.
Proof.
  destruct (C5_update_fields (RsvpModel.new_with_rsvp test_rsvp 1) rsvp_no_plus_one_meal 2
              eq_refl)
    as (r & Hr & _ & Hc & Hu & _ & _ & _ & _ & _ & _ & _ & _ & Hp & _).
  exists r; split; [exact Hr|]. split; [rewrite Hp; reflexivity|].
  split; [exact Hc | exact Hu].
Defined.



Lemma C9_attendance_tier_sums_witness :
  exists a, run attendance_op (store_of two_attending 0) = Ok a
  /\ attending a = tier_sum RsvpModel.attending two_attending.
Proof.
  destruct (C9_attendance_tier_sums (store_of two_attending 0) two_attending
              (store_of_readable _ _)) as [(a & Ha & _ & _ & _ & H1 & _ & _) _].
  exists a; split; [exact Ha | apply H1; vm_compute; reflexivity].
Defined.

Lemma C10_blank_part_matches_witness :
  exists r, run (get " & Bob") (store_of [model_named "Carl" "Dee"; model_named "Amy" ""] 0)
    = Ok (Some r).
Proof.
  destruct (C10_blank_part_matches (store_of [model_named "Carl" "Dee"; model_named "Amy" ""] 0)
              [model_named "Carl" "Dee"; model_named "Amy" ""] (model_named "Amy" "") " & Bob")
    as (r & Hr & _).
  - apply store_of_readable.
  - simpl; right; left; reflexivity.
  - reflexivity.
  - simpl; left; reflexivity.
  - exists r; exact Hr.
Defined.

(* ------------------------------------------------------------------ *)
(** ** Further properties of the store *)

Lemma insert_cases (p : AddParams.t) (db : CsvDb) :
  insert p db =
    match get_scan (query_parts (AddParams.name p)) (deserialize (file db)) with
    | Ok None =>
        (Ok (RsvpModel.new_with_add p (datetime db)),
         {| file := file db ++ [RecordRow (RsvpModel.new_with_add p (datetime db))];
            datetime := datetime db |})
    | Ok (Some _) => (Err (Add p), db)
    | Err e => (Err e, db)
    end.
Proof.
  unfold insert, bind, get, fail, now, append_row, ret; simpl.
  destruct (get_scan _ _) as [[m|]|e]; reflexivity.
Qed.

Lemma get_scan_none_readable (parts : list string) (rows : list (result RsvpModel.t)) :
  get_scan parts rows = Ok None -> exists rs, collect rows = Ok rs.
Proof.
  induction rows as [|[r|e] rows IH]; simpl; intros H.
  - now exists [].
  - destruct (matches_query parts r); [discriminate|].
    destruct (IH H) as [rs Hrs]; rewrite Hrs; now exists (r :: rs).
  - discriminate.
Qed.

Lemma deserialize_append_header (tl : list Row) (r : RsvpModel.t) :
  deserialize ((HeaderRow :: tl) ++ [RecordRow r])
  = deserialize (HeaderRow :: tl) ++ [Ok r].
Proof. simpl. now rewrite map_app. Qed.

Lemma attendance_scan_snoc (rs : list RsvpModel.t) (r : RsvpModel.t) (acc : Attendance) :
  attendance_scan acc (map Ok rs ++ [Ok r]) =
    match attendance_scan acc (map Ok rs) with
    | Ok a => Ok (count_rsvp a r)
    | Err e => Err e
    end.
Proof. revert acc; induction rs as [|r' rs IH]; intros acc; simpl; [reflexivity | apply IH]. Qed.

(** A successful [insert] returns the record [new_with_add] builds at
    the store's time and appends exactly that row at the end of the file. *)
Lemma insert_ok_appends (p : AddParams.t) (db : CsvDb) (r : RsvpModel.t) :
  run (insert p) db = Ok r ->
  r = RsvpModel.new_with_add p (datetime db)
  /\ file (exec (insert p) db) = file db ++ [RecordRow r]
  /\ datetime (exec (insert p) db) = datetime db.
Proof.
  unfold run, exec; rewrite insert_cases.
  destruct (get_scan _ _) as [[m|]|e]; simpl; intros H; inversion H; subst; auto.
Qed.

(** X2: [insert] refuses a name that any stored record answers to, through
    its name or its plus-one name (in any case, with the query trimmed and
    split on ['&']): it fails with [Add] and the store is unchanged. *)
Theorem insert_rejects_known_name (p : AddParams.t) (db : CsvDb)
    (rs : list RsvpModel.t) (r : RsvpModel.t) :
  run get_all db = Ok rs ->
  In r rs ->
  matches_query (query_parts (AddParams.name p)) r = true ->
  insert p db = (Err (Add p), db).
Proof.
  intros Hall Hin Hm. rewrite insert_cases, (get_all_ok _ _ Hall), get_scan_map_ok.
  destruct (find _ rs) eqn:Hf; [reflexivity|].
  apply find_none with (x := r) in Hf; congruence.
Qed.

(** X3: on a store whose file starts with the header line, a successful
    [insert] adds its record at the end of the listing. *)
Theorem insert_then_get_all (p : AddParams.t) (db : CsvDb) (tl : list Row)
    (rs : list RsvpModel.t) (r : RsvpModel.t) :
  file db = HeaderRow :: tl ->
  run get_all db = Ok rs ->
  run (insert p) db = Ok r ->
  run get_all (exec (insert p) db) = Ok (rs ++ [r]).
Proof.
  intros Hf Hall Hins. destruct (insert_ok_appends p db r Hins) as (_ & Hfile & _).
  unfold run, get_all at 1; simpl. rewrite Hfile, Hf, deserialize_append_header, <- Hf.
  rewrite (get_all_ok _ _ Hall).
  replace (map Ok rs ++ [Ok r]) with (map Ok (rs ++ [r])) by (rewrite map_app; reflexivity).
  apply collect_map_ok.
Qed.

(** X4: a record added by [insert] attends nothing, so on a store whose file
    starts with the header line the attendance totals stay the same. *)
Theorem insert_keeps_attendance (p : AddParams.t) (db : CsvDb) (tl : list Row)
    (r : RsvpModel.t) :
  file db = HeaderRow :: tl ->
  run (insert p) db = Ok r ->
  run attendance_op (exec (insert p) db) = run attendance_op db.
Proof.
  intros Hf Hins. destruct (insert_ok_appends p db r Hins) as (Hr & Hfile & _).
  assert (Hread : exists rs, run get_all db = Ok rs).
  { unfold run in Hins; rewrite insert_cases in Hins.
    destruct (get_scan _ _) as [[m|]|e] eqn:Hg; try discriminate.
    apply get_scan_none_readable in Hg as [rs Hrs]. now exists rs. }
  destruct Hread as [rs Hall].
  unfold run, attendance_op; simpl. rewrite Hfile, Hf, deserialize_append_header, <- Hf.
  rewrite (get_all_ok _ _ Hall), attendance_scan_snoc.
  destruct (attendance_scan _ _) as [[a b c]|e]; [|reflexivity].
  subst r; reflexivity.
Qed.

Lemma upsert_cases (p : RsvpParams.t) (db : CsvDb) :
  upsert p db =
    match remove (RsvpParams.name p) db with
    | (Ok None, db1) =>
        (Ok (RsvpModel.new_with_rsvp p (datetime db1)),
         {| file := file db1 ++ [RecordRow (RsvpModel.new_with_rsvp p (datetime db1))];
            datetime := datetime db1 |})
    | (Ok (Some record), db1) =>
        match RsvpModel.update record p (datetime db1) with
        | Ok m => (Ok m, {| file := file db1 ++ [RecordRow m]; datetime := datetime db1 |})
        | Err e => (Err e, db1)
        end
    | (Err e, db1) => (Err e, db1)
    end.
Proof.
  unfold upsert, bind, now, lift, append_row, ret; simpl.
  destruct (remove _ db) as [[[r|]|e] db1]; [|reflexivity|reflexivity].
  destruct (RsvpModel.update r p (datetime db1)); reflexivity.
Qed.

(** X5: on a readable store whose file starts with the header line,
    [upsert] of a name no stored name matches case-insensitively (once the
    name is trimmed) creates the record [new_with_rsvp] builds at the store's
    time and lists it after all the earlier records. *)
Theorem upsert_new_name_appends (p : RsvpParams.t) (db : CsvDb) (tl : list Row)
    (rs : list RsvpModel.t) :
  file db = HeaderRow :: tl ->
  run get_all db = Ok rs ->
  find (same_name (to_lowercase (trim (RsvpParams.name p)))) rs = None ->
  run (upsert p) db = Ok (RsvpModel.new_with_rsvp p (datetime db))
  /\ run get_all (exec (upsert p) db) = Ok (rs ++ [RsvpModel.new_with_rsvp p (datetime db)]).
Proof.
  intros Hf Hall Hnone. unfold run, exec; rewrite upsert_cases.
  rewrite (remove_absent _ _ _ Hall Hnone). simpl. split; [reflexivity|].
  unfold get_all; simpl. rewrite Hf, deserialize_append_header, <- Hf, (get_all_ok _ _ Hall).
  replace (map Ok rs ++ [Ok (RsvpModel.new_with_rsvp p (datetime db))])
    with (map Ok (rs ++ [RsvpModel.new_with_rsvp p (datetime db)]))
    by (rewrite map_app; reflexivity).
  apply collect_map_ok.
Qed.

Lemma deserialize_rewrite_append (survivors : list RsvpModel.t) (m : RsvpModel.t) :
  survivors <> [] ->
  deserialize (serialize_with_headers survivors ++ [RecordRow m]) = map Ok (survivors ++ [m]).
Proof.
  destruct survivors as [|s ss]; intros H; [contradiction|].
  change (serialize_with_headers (s :: ss)) with (HeaderRow :: map RecordRow (s :: ss)).
  rewrite deserialize_append_header. simpl. rewrite map_map, map_app. reflexivity.
Qed.

(** X6: on a readable store, [upsert] of a name whose first
    case-insensitive match carries exactly that name merges into it (keeping
    its [created_at]); when some other record remains, the listing becomes
    the records with other names, in their order, followed by the merged
    record. *)
Theorem upsert_existing_moves_last (p : RsvpParams.t) (db : CsvDb)
    (rs : list RsvpModel.t) (r0 : RsvpModel.t) :
  let n := to_lowercase (trim (RsvpParams.name p)) in
  let survivors := filter (fun x => negb (same_name n x)) rs in
  run get_all db = Ok rs ->
  find (same_name n) rs = Some r0 ->
  RsvpModel.name r0 = RsvpParams.name p ->
  survivors <> [] ->
  exists m, RsvpModel.update r0 p (datetime db) = Ok m
  /\ RsvpModel.created_at m = RsvpModel.created_at r0
  /\ RsvpModel.updated_at m = datetime db
  /\ run (upsert p) db = Ok m
  /\ run get_all (exec (upsert p) db) = Ok (survivors ++ [m]).
Proof.
  intros n survivors Hall Hfind Hname Hne.
  destruct (RsvpModel.update r0 p (datetime db)) as [m|e] eqn:Hu.
  2:{ unfold RsvpModel.update in Hu; rewrite Hname, String.eqb_refl in Hu; discriminate. }
  exists m. split; [reflexivity|].
  assert (Hts : RsvpModel.created_at m = RsvpModel.created_at r0
                /\ RsvpModel.updated_at m = datetime db).
  { unfold RsvpModel.update in Hu; rewrite Hname, String.eqb_refl in Hu.
    inversion Hu; split; reflexivity. }
  split; [apply Hts|]. split; [apply Hts|].
  unfold run, exec; rewrite upsert_cases, (remove_found _ _ _ _ Hall Hfind).
  cbn [fst snd datetime file]. rewrite Hu. cbn [fst snd file].
  split; [reflexivity|].
  unfold get_all; cbn [fst file]. fold n survivors.
  rewrite (deserialize_rewrite_append survivors m Hne). apply collect_map_ok.
Qed.

(** X7: on a readable store where every record matches the upserted name
    case-insensitively and the first match carries exactly that name,
    [upsert] succeeds yet leaves the file as the merged row alone, without
    the header line, so the listing afterwards is empty and [get] on the
    name finds nothing. *)
Theorem upsert_all_matching_empties_listing (p : RsvpParams.t) (db : CsvDb)
    (rs : list RsvpModel.t) (r0 : RsvpModel.t) :
  let n := to_lowercase (trim (RsvpParams.name p)) in
  run get_all db = Ok rs ->
  find (same_name n) rs = Some r0 ->
  RsvpModel.name r0 = RsvpParams.name p ->
  filter (fun x => negb (same_name n x)) rs = [] ->
  exists m, run (upsert p) db = Ok m
  /\ file (exec (upsert p) db) = [RecordRow m]
  /\ run get_all (exec (upsert p) db) = Ok []
  /\ run (get (RsvpParams.name p)) (exec (upsert p) db) = Ok None.
Proof.
  intros n Hall Hfind Hname Hnil.
  destruct (RsvpModel.update r0 p (datetime db)) as [m|e] eqn:Hu.
  2:{ unfold RsvpModel.update in Hu; rewrite Hname, String.eqb_refl in Hu; discriminate. }
  exists m. unfold run, exec; rewrite upsert_cases, (remove_found _ _ _ _ Hall Hfind).
  cbn [fst snd datetime file]. rewrite Hu. cbn [fst snd file]. fold n. rewrite Hnil.
  repeat split; reflexivity.
Qed.

(** X8: on a readable store, removing a name a second time finds nothing. *)
Theorem remove_twice_none (name : string) (db : CsvDb) (rs : list RsvpModel.t) :
  run get_all db = Ok rs ->
  run (remove name) (exec (remove name) db) = Ok None.
Proof.
  intros Hall. set (n := to_lowercase (trim name)).
  destruct (find (same_name n) rs) as [r|] eqn:Hf.
  - unfold exec; rewrite (remove_found _ _ _ _ Hall Hf). cbn [snd]. fold n.
    set (survivors := filter (fun x => negb (same_name n x)) rs).
    assert (Hs : run get_all {| file := serialize_with_headers survivors;
                                datetime := datetime db |} = Ok survivors).
    { unfold run, get_all; simpl. rewrite deserialize_serialize_with_headers.
      apply collect_map_ok. }
    assert (Hn : find (same_name n) survivors = None).
    { destruct (find (same_name n) survivors) as [x|] eqn:Hx; [|reflexivity].
      apply find_some in Hx as [Hin Hx]. apply filter_In in Hin as [_ Hin].
      rewrite Hx in Hin; discriminate. }
    unfold run; rewrite (remove_absent _ _ _ Hs Hn). reflexivity.
  - unfold exec; rewrite (remove_absent _ _ _ Hall Hf). cbn [snd].
    unfold run; rewrite (remove_absent _ _ _ Hall Hf). reflexivity.
Qed.

(** X9: on an empty file (a new CSV file opened by [AppState::new], which
    writes no header), [insert] and [upsert] succeed and append their row,
    but that first row is then read as the header: the listing stays empty. *)
Theorem empty_file_first_record_unlisted (a : AddParams.t) (p : RsvpParams.t) (t : DateTime) :
  let db := {| file := []; datetime := t |} in
  run (insert a) db = Ok (RsvpModel.new_with_add a t)
  /\ file (exec (insert a) db) = [RecordRow (RsvpModel.new_with_add a t)]
  /\ run get_all (exec (insert a) db) = Ok []
  /\ run (upsert p) db = Ok (RsvpModel.new_with_rsvp p t)
  /\ file (exec (upsert p) db) = [RecordRow (RsvpModel.new_with_rsvp p t)]
  /\ run get_all (exec (upsert p) db) = Ok [].
Proof.
  intros db. unfold run, exec. rewrite insert_cases, upsert_cases.
  unfold db, remove, bind, get_all, ret; simpl.
  repeat split; reflexivity.
Qed.

(** X10: when the file is a single data row without header (as after the
    header loss of [remove]), the listing is empty, an [insert] still
    succeeds, and from then on every row after the first fails to decode:
    [get_all] returns the [Csv] error. *)
Theorem headerless_store_becomes_unreadable (r0 : RsvpModel.t) (a : AddParams.t)
    (t : DateTime) :
  let db := {| file := [RecordRow r0]; datetime := t |} in
  run get_all db = Ok []
  /\ run (insert a) db = Ok (RsvpModel.new_with_add a t)
  /\ run get_all (exec (insert a) db) = Err Csv.
Proof.
  intros db. unfold run, exec. rewrite insert_cases. unfold db, get_all; simpl.
  repeat split; reflexivity.
Qed.

(** X11: once some row of the file fails to decode, the store is stuck: [remove] and [upsert] fail with that error
    and [insert] fails, all three leaving the file unchanged. *)
Theorem unreadable_store_frozen (db : CsvDb) (e : Error) (name : string)
    (a : AddParams.t) (p : RsvpParams.t) :
  run get_all db = Err e ->
  remove name db = (Err e, db)
  /\ upsert p db = (Err e, db)
  /\ (exists e', insert a db = (Err e', db)).
Proof.
  intros H.
  assert (Hr : forall n, remove n db = (Err e, db)).
  { intros n; unfold remove, bind; unfold run in H; unfold get_all at 1.
    simpl in H |- *; now rewrite H. }
  split; [apply Hr|]. split.
  - rewrite upsert_cases, Hr. reflexivity.
  - rewrite insert_cases.
    destruct (get_scan _ _) as [[m|]|e'] eqn:Hg.
    + now exists (Add a).
    + apply get_scan_none_readable in Hg as [rs Hrs].
      unfold run, get_all in H; simpl in H; congruence.
    + now exists e'.
Qed.

Lemma query_parts_whitespace_only (q : string) :
  trim q = EmptyString -> query_parts q = [EmptyString].
Proof.
  intros Ht.
  assert (Ha : has_char "&" q = false).
  { destruct (has_char "&" q) eqn:E; [|reflexivity].
    apply (has_char_trim "&"%char q eq_refl) in E.
    rewrite Ht in E; discriminate. }
  rewrite (query_parts_no_amp q Ha), Ht; reflexivity.
Qed.

(** X12: [handle_fetch] turns away only the exactly empty name, without
    reading the store; every other name is answered from [get] (a page for
    a found record, [NameNotFound] for none, the error otherwise).  A
    nonempty whitespace-only name gets past that check, and on a readable
    store holding a record with an empty plus-one name it returns the page
    of the first record in file order whose name or plus-one name is
    empty. *)
Theorem handle_fetch_empty_guard (db : CsvDb) :
  handle_fetch EmptyString db = (Ok NameNotFound, db)
  /\ (forall q, q <> EmptyString ->
        handle_fetch q db =
        match get q db with
        | (Ok (Some r), db') => (Ok (RsvpPage r), db')
        | (Ok None, db') => (Ok NameNotFound, db')
        | (Err e, db') => (Err e, db')
        end)
  /\ (forall q rs r0, q <> EmptyString -> trim q = EmptyString ->
        run get_all db = Ok rs ->
        In r0 rs ->
        RsvpModel.plus_one_name r0 = EmptyString ->
        exists r, handle_fetch q db = (Ok (RsvpPage r), db)
        /\ find (matches_query [EmptyString]) rs = Some r).
Proof.
  assert (Hne : forall q, q <> EmptyString ->
            handle_fetch q db =
            match get q db with
            | (Ok (Some r), db') => (Ok (RsvpPage r), db')
            | (Ok None, db') => (Ok NameNotFound, db')
            | (Err e, db') => (Err e, db')
            end).
  { intros q Hq. unfold handle_fetch.
    destruct q as [|c q']; [contradiction|]. cbn [is_empty].
    unfold bind. destruct (get (String c q') db) as [[[r|]|e] db']; reflexivity. }
  split; [reflexivity|]. split; [exact Hne|].
  intros q rs r0 Hq Ht Hall Hin Hp.
  rewrite (Hne q Hq). unfold get.
  rewrite (get_all_ok _ _ Hall), get_scan_map_ok, (query_parts_whitespace_only q Ht).
  destruct (find (matches_query [EmptyString]) rs) as [r|] eqn:Hf.
  - exists r; split; reflexivity.
  - apply find_none with (x := r0) in Hf; [|exact Hin].
    unfold matches_query, matches_part in Hf; simpl in Hf.
    rewrite Hp, orb_true_r in Hf; discriminate.
Qed.

(* ------------------------------------------------------------------ *)
(** ** Witnesses of the further properties *)

Lemma insert_rejects_known_name_witness :
  insert (add_named "ANN ") (store_of [model_named "Bob" "Ann"] 0)
    = (Err (Add (add_named "ANN ")), store_of [model_named "Bob" "Ann"] 0).
Proof.
  apply (insert_rejects_known_name (add_named "ANN ") (store_of [model_named "Bob" "Ann"] 0)
           [model_named "Bob" "Ann"] (model_named "Bob" "Ann")).
  - apply store_of_readable.
  - simpl; left; reflexivity.
  - vm_compute; reflexivity.
Defined.

Lemma insert_then_get_all_witness :
  run get_all (exec (insert (add_named "Ann")) (store_of [model_named "Bob" ""] 2))
    = Ok [model_named "Bob" ""; RsvpModel.new_with_add (add_named "Ann") 2].
Proof.
  apply (insert_then_get_all (add_named "Ann") (store_of [model_named "Bob" ""] 2)
           [RecordRow (model_named "Bob" "")] [model_named "Bob" ""]).
  - reflexivity.
  - apply store_of_readable.
  - vm_compute; reflexivity.
Defined.

Lemma insert_keeps_attendance_witness :
  run attendance_op (exec (insert (add_named "Ann")) (store_of two_attending 2))
    = run attendance_op (store_of two_attending 2).
Proof.
  apply (insert_keeps_attendance (add_named "Ann") (store_of two_attending 2)
           (map RecordRow two_attending) (RsvpModel.new_with_add (add_named "Ann") 2)).
  - reflexivity.
  - vm_compute; reflexivity.
Defined.

Lemma upsert_new_name_appends_witness :
  run get_all (exec (upsert test_rsvp) (store_of [model_named "Bob" ""] 4))
    = Ok [model_named "Bob" ""; RsvpModel.new_with_rsvp test_rsvp 4].
Proof.
  apply (upsert_new_name_appends test_rsvp (store_of [model_named "Bob" ""] 4)
           [RecordRow (model_named "Bob" "")] [model_named "Bob" ""]).
  - reflexivity.
  - apply store_of_readable.
  - vm_compute; reflexivity.
Defined.

Lemma upsert_existing_moves_last_witness :
  exists m, run (upsert test_rsvp) (store_of [model_named "John" ""; model_named "Amy" ""] 4)
    = Ok m
  /\ run get_all (exec (upsert test_rsvp) (store_of [model_named "John" ""; model_named "Amy" ""] 4))
    = Ok [model_named "Amy" ""; m].
Proof.
  destruct (upsert_existing_moves_last test_rsvp
              (store_of [model_named "John" ""; model_named "Amy" ""] 4)
              [model_named "John" ""; model_named "Amy" ""] (model_named "John" ""))
    as (m & _ & _ & _ & H1 & H2).
  - apply store_of_readable.
  - vm_compute; reflexivity.
  - reflexivity.
  - vm_compute; discriminate.
  - exists m; split; [exact H1 | exact H2].
Defined.

Lemma upsert_all_matching_empties_listing_witness :
  run get_all (exec (upsert test_rsvp) (store_of [model_named "John" ""] 4)) = Ok [].
Proof.
  destruct (upsert_all_matching_empties_listing test_rsvp (store_of [model_named "John" ""] 4)
              [model_named "John" ""] (model_named "John" ""))
    as (m & _ & _ & H & _).
  - apply store_of_readable.
  - vm_compute; reflexivity.
  - reflexivity.
  - vm_compute; reflexivity.
  - exact H.
Defined.

Lemma remove_twice_none_witness :
  run (remove "john") (exec (remove "john") (store_of [model_named "John" ""] 0)) = Ok None.
Proof.
  apply (remove_twice_none "john" (store_of [model_named "John" ""] 0) [model_named "John" ""]).
  apply store_of_readable.
Defined.

Lemma unreadable_store_frozen_witness :
  let db := {| file := [RecordRow (model_named "Amy" ""); RecordRow (model_named "Bob" "")];
               datetime := 0 |} in
  upsert test_rsvp db = (Err Csv, db).
Proof.
  intros db.
  destruct (unreadable_store_frozen db Csv "Amy" (add_named "Amy") test_rsvp) as (_ & H & _).
  - vm_compute; reflexivity.
  - exact H.
Defined.

Lemma handle_fetch_empty_guard_witness :
  handle_fetch "  " (store_of [model_named "Carl" "Dee"; model_named "Amy" ""; model_named "Ben" ""] 0)
    = (Ok (RsvpPage (model_named "Amy" "")),
       store_of [model_named "Carl" "Dee"; model_named "Amy" ""; model_named "Ben" ""] 0).
Proof.
  destruct (handle_fetch_empty_guard
              (store_of [model_named "Carl" "Dee"; model_named "Amy" ""; model_named "Ben" ""] 0))
    as (_ & _ & H).
  destruct (H "  "%string [model_named "Carl" "Dee"; model_named "Amy" ""; model_named "Ben" ""]
              (model_named "Ben" "")) as (r & Hr & Hf).
  - discriminate.
  - reflexivity.
  - apply store_of_readable.
  - simpl; right; right; left; reflexivity.
  - reflexivity.
  - vm_compute in Hf. injection Hf as <-. exact Hr.
Defined.
